(** * DOCX export strategy ([DocxExportStrategy]) : model and properties

    A shallow embedding of the HTML-to-DOCX export class.  The parsed
    markup is a small DOM tree, the [docx] library objects are records
    holding exactly the options the source passes to their constructors,
    and the orchestrator [export] runs in a state-and-exception monad whose
    state is the trace of effects on the collaborators (editor instances,
    the file-save facility, the console).

    Conventions.  A string is the sequence of the bytes of its UTF-8
    encoding, so that a character outside the ASCII range takes two or
    three bytes.  [trim] strips every character that JavaScript counts as
    white space or as a line terminator.  [toLowerCase] maps the letters A
    to Z and the Kelvin sign to their lower-case letters; these are the only
    characters whose lower-case form is an ASCII letter, and the source
    compares lower-cased tag names with ASCII literals only.  Numbers that
    are sizes are [Z]; positions are [nat]. *)

From Stdlib Require Import List String Ascii Bool Arith ZArith Lia Permutation.
From Stdlib Require Import DecimalString Sorted FunInd.
Import ListNotations.
Local Open Scope string_scope.
Local Open Scope nat_scope.
Local Open Scope list_scope.

(** ** JavaScript string primitives *)

Module JsString.

Definition lower_ascii (c : ascii) : ascii :=
  let n := nat_of_ascii c in
  if (65 <=? n) && (n <=? 90) then ascii_of_nat (n + 32) else c.

(** The three bytes of the Kelvin sign, U+212A. *)
Definition isKelvin (a b c : ascii) : bool :=
  (nat_of_ascii a =? 226) && (nat_of_ascii b =? 132)
  && (nat_of_ascii c =? 170).

(** [s.toLowerCase()] *)
Fixpoint toLowerCase (s : string) : string :=
  match s with
  | EmptyString => EmptyString
  | String a r =>
      match r with
      | String b (String c r2) =>
          if isKelvin a b c then String "k" (toLowerCase r2)
          else String (lower_ascii a) (toLowerCase r)
      | _ => String (lower_ascii a) (toLowerCase r)
      end
  end.

(** White space of one byte: TAB, LF, VT, FF, CR and SPACE. *)
Definition space1 (a : ascii) : bool :=
  let n := nat_of_ascii a in
  ((9 <=? n) && (n <=? 13)) || (n =? 32).

(** White space of two bytes: the no-break space U+00A0. *)
Definition space2 (a b : ascii) : bool :=
  (nat_of_ascii a =? 194) && (nat_of_ascii b =? 160).

(** White space of three bytes: U+1680, U+2000 to U+200A, the line and
    paragraph separators U+2028 and U+2029, U+202F, U+205F, U+3000 and the
    byte order mark U+FEFF. *)
Definition space3 (a b c : ascii) : bool :=
  let x := nat_of_ascii a in
  let y := nat_of_ascii b in
  let z := nat_of_ascii c in
  ((x =? 225) && (y =? 154) && (z =? 128))
  || ((x =? 226) && (y =? 128)
      && (((128 <=? z) && (z <=? 138)) || (z =? 168) || (z =? 169)
          || (z =? 175)))
  || ((x =? 226) && (y =? 129) && (z =? 159))
  || ((x =? 227) && (y =? 128) && (z =? 128))
  || ((x =? 239) && (y =? 187) && (z =? 191)).

(** The string is made of white space only. *)
Function blank (s : string) {struct s} : bool :=
  match s with
  | EmptyString => true
  | String a r =>
      if space1 a then blank r
      else
        match r with
        | String b r1 =>
            if space2 a b then blank r1
            else
              match r1 with
              | String c r2 => if space3 a b c then blank r2 else false
              | EmptyString => false
              end
        | EmptyString => false
        end
  end.

Function trimStart (s : string) {struct s} : string :=
  match s with
  | EmptyString => EmptyString
  | String a r =>
      if space1 a then trimStart r
      else
        match r with
        | String b r1 =>
            if space2 a b then trimStart r1
            else
              match r1 with
              | String c r2 => if space3 a b c then trimStart r2 else s
              | EmptyString => s
              end
        | EmptyString => s
        end
  end.

(** The string up to the point from which only white space follows. *)
Fixpoint trimEnd (s : string) : string :=
  match s with
  | EmptyString => EmptyString
  | String a r => if blank s then EmptyString else String a (trimEnd r)
  end.

(** [s.trim()] *)
Definition trim (s : string) : string := trimEnd (trimStart s).

(** Truthiness of a string value: every string but the empty one. *)
Definition truthy (s : string) : bool :=
  match s with EmptyString => false | _ => true end.

(** [`${n}`] for a non-negative integer. *)
Definition ofNat (n : nat) : string :=
  NilEmpty.string_of_uint (Nat.to_uint n).

(** [a || b] on optional strings, as in [content.title || articleTitle]. *)
Definition orElse (a : option string) (b : string) : string :=
  match a with
  | Some s => if truthy s then s else b
  | None => b
  end.

End JsString.

(** ** The parsed source document *)

Module Dom.

(** An element carries its [tagName] as the DOM reports it and its
    [childNodes]; text and comment nodes carry their data. *)
Inductive Element : Type :=
| mkElement (tagName : string) (childNodes : list Node)
with Node : Type :=
| TextNode (data : string)
| ElementNode (e : Element)
| CommentNode (data : string).

Definition tagName (e : Element) : string :=
  match e with mkElement t _ => t end.

Definition childNodes (e : Element) : list Node :=
  match e with mkElement _ cs => cs end.

(** [element.children]: the child nodes that are elements. *)
Fixpoint elementsOf (ns : list Node) : list Element :=
  match ns with
  | [] => []
  | ElementNode e :: r => e :: elementsOf r
  | _ :: r => elementsOf r
  end.

Definition children (e : Element) : list Element :=
  elementsOf (childNodes e).

(** [element.textContent]: the data of all text descendants, in tree
    order. *)
Fixpoint textContent (e : Element) : string :=
  match e with
  | mkElement _ cs =>
      (fix go (ns : list Node) : string :=
         match ns with
         | [] => ""
         | TextNode d :: r => (d ++ go r)%string
         | ElementNode c :: r => (textContent c ++ go r)%string
         | CommentNode _ :: r => go r
         end) cs
  end.

(** [node.textContent] of a single node. *)
Definition nodeTextContent (n : Node) : string :=
  match n with
  | TextNode d => d
  | ElementNode e => textContent e
  | CommentNode d => d
  end.

(** [element.tagName.toLowerCase()] *)
Definition lowerTag (e : Element) : string :=
  JsString.toLowerCase (tagName e).

Definition hasTag (t : string) (e : Element) : bool :=
  (lowerTag e =? t)%string.

(** [row.cells]: the [td] and [th] children of a row. *)
Definition cells (row : Element) : list Element :=
  filter (fun c => hasTag "td" c || hasTag "th" c) (children row).

Definition trChildren (e : Element) : list Element :=
  filter (hasTag "tr") (children e).

(** [table.rows]: the rows of the [thead] children first, then the rows
    that are children of the table or of its [tbody] children in tree
    order, then the rows of the [tfoot] children. *)
Definition rows (table : Element) : list Element :=
  flat_map trChildren (filter (hasTag "thead") (children table))
  ++ flat_map (fun c => if hasTag "tr" c then [c]
                        else if hasTag "tbody" c then trChildren c
                        else [])
              (children table)
  ++ flat_map trChildren (filter (hasTag "tfoot") (children table)).

End Dom.

(** ** The document objects of the [docx] library *)

Inductive HeadingLevel : Type :=
| HEADING_1 | HEADING_2 | HEADING_3 | HEADING_4 | HEADING_5 | HEADING_6
| TITLE.

Inductive AlignmentType : Type := CENTER.

Record TextRun : Type := mkTextRun {
  run_text : string;
  run_bold : option bool;
  run_italics : option bool;
  run_underline : bool;
  run_strike : option bool;
  run_font : option string;
  run_size : option Z;
  run_color : option string;
  run_shading : option string
}.

(** [new TextRun({ text })] *)
Definition plainRun (text : string) : TextRun :=
  mkTextRun text None None false None None None None None.

Inductive BorderSide : Type := BorderLeft | BorderBottom.

Record Border : Type := mkBorder {
  border_side : BorderSide;
  border_color : string;
  border_size : Z;
  border_style : string
}.

Record Paragraph : Type := mkParagraph {
  par_children : list TextRun;
  par_heading : option HeadingLevel;
  par_alignment : option AlignmentType;
  par_spacing_before : option Z;
  par_spacing_after : option Z;
  par_indent_left : option Z;
  par_border : option Border;
  par_shading : option string
}.

Record TableCell : Type := mkTableCell {
  cell_children : list Paragraph;
  cell_shading : option string
}.

Record TableRow : Type := mkTableRow { row_children : list TableCell }.

Inductive WidthType : Type := PERCENTAGE.

Record Table : Type := mkTable {
  table_rows : list TableRow;
  table_width_size : Z;
  table_width_type : WidthType
}.

(** What [sections] holds: paragraphs and tables. *)
Inductive Block : Type :=
| BParagraph (p : Paragraph)
| BTable (t : Table).

Record Document : Type := mkDocument {
  doc_creator : string;
  doc_title : string;
  doc_description : string;
  doc_children : list Block
}.

(** ** The block and inline formatters *)

Import Dom.

(** The [switch] of [createHeading]: the font size, in half-points, that
    each heading level maps to. *)
Definition headingFontSize (level : HeadingLevel) : Z :=
  match level with
  | HEADING_1 => 32
  | HEADING_2 => 28
  | HEADING_3 => 26
  | HEADING_4 => 24
  | HEADING_5 => 22
  | HEADING_6 => 20
  | TITLE => 36
  end%Z.

Definition isHeading1 (level : HeadingLevel) : bool :=
  match level with HEADING_1 => true | _ => false end.

Definition createHeading (text : string) (level : HeadingLevel) : Paragraph :=
  let fontSize := headingFontSize level in
  {| par_children :=
       [ {| run_text := text; run_bold := Some true; run_italics := None;
            run_underline := false; run_strike := None; run_font := None;
            run_size := Some fontSize; run_color := Some "2c3e50";
            run_shading := None |} ];
     par_heading := Some level;
     par_alignment := None;
     par_spacing_before := Some (if isHeading1 level then 400 else 300)%Z;
     par_spacing_after := Some 200%Z;
     par_indent_left := None;
     par_border := None;
     par_shading := None |}.

(** The run an inline child element yields, by its lower-cased tag. *)
Definition inlineRun (tag text : string) : TextRun :=
  if ((tag =? "strong") || (tag =? "b"))%string then
    {| run_text := text; run_bold := Some true; run_italics := None;
       run_underline := false; run_strike := None; run_font := None;
       run_size := None; run_color := None; run_shading := None |}
  else if ((tag =? "em") || (tag =? "i"))%string then
    {| run_text := text; run_bold := None; run_italics := Some true;
       run_underline := false; run_strike := None; run_font := None;
       run_size := None; run_color := None; run_shading := None |}
  else if (tag =? "u")%string then
    {| run_text := text; run_bold := None; run_italics := None;
       run_underline := true; run_strike := None; run_font := None;
       run_size := None; run_color := None; run_shading := None |}
  else if ((tag =? "s") || (tag =? "strike"))%string then
    {| run_text := text; run_bold := None; run_italics := None;
       run_underline := false; run_strike := Some true; run_font := None;
       run_size := None; run_color := None; run_shading := None |}
  else if (tag =? "code")%string then
    {| run_text := text; run_bold := None; run_italics := None;
       run_underline := false; run_strike := None;
       run_font := Some "Courier New"; run_size := Some 18%Z;
       run_color := None; run_shading := Some "f4f4f4" |}
  else if (tag =? "a")%string then
    {| run_text := text; run_bold := None; run_italics := None;
       run_underline := true; run_strike := None; run_font := None;
       run_size := None; run_color := Some "0066cc"; run_shading := None |}
  else plainRun text.

(** One turn of the loop of [processInlineElements]: the runs pushed for
    one child node. *)
Definition inlineNode (node : Node) : list TextRun :=
  match node with
  | TextNode text =>
      if JsString.truthy (JsString.trim text) then [plainRun text] else []
  | ElementNode el =>
      let text := textContent el in
      if negb (JsString.truthy (JsString.trim text)) then []
      else [inlineRun (lowerTag el) text]
  | CommentNode _ => []
  end.

(** [processInlineElements(element, textRuns)] pushes onto [textRuns]; the
    result is the array after the call. *)
Definition processInlineElements (element : Element) (textRuns : list TextRun)
  : list TextRun :=
  textRuns ++ flat_map inlineNode (childNodes element).

Definition createParagraph (element : Element) : Paragraph :=
  let textRuns := processInlineElements element [] in
  let textRuns :=
    match textRuns with
    | [] => [plainRun (textContent element)]
    | _ => textRuns
    end in
  {| par_children := textRuns;
     par_heading := None;
     par_alignment := None;
     par_spacing_before := None;
     par_spacing_after := Some 200%Z;
     par_indent_left := None;
     par_border := None;
     par_shading := None |}.

(** The marker of the list item at position [index] among the children of
    the list. *)
Definition bulletText (isOrdered : bool) (index : nat) : string :=
  if isOrdered then (JsString.ofNat (index + 1) ++ ".")%string else "•".

Definition listItem (isOrdered : bool) (index : nat) (li : Element) : Paragraph :=
  {| par_children :=
       [ plainRun (bulletText isOrdered index ++ " " ++ textContent li)%string ];
     par_heading := None;
     par_alignment := None;
     par_spacing_before := None;
     par_spacing_after := Some 100%Z;
     par_indent_left := Some 720%Z;
     par_border := None;
     par_shading := None |}.

(** The [forEach((li, index) => ...)] of [createList], started at
    [index]. *)
Fixpoint createListFrom (isOrdered : bool) (index : nat) (cs : list Element)
  : list Paragraph :=
  match cs with
  | [] => []
  | li :: r =>
      (if hasTag "li" li then [listItem isOrdered index li] else [])
      ++ createListFrom isOrdered (S index) r
  end.

Definition createList (listElement : Element) : list Paragraph :=
  let isOrdered := hasTag "ol" listElement in
  createListFrom isOrdered 0 (children listElement).

Definition createBlockquote (text : string) : Paragraph :=
  {| par_children :=
       [ {| run_text := text; run_bold := None; run_italics := Some true;
            run_underline := false; run_strike := None; run_font := None;
            run_size := None; run_color := Some "666666";
            run_shading := None |} ];
     par_heading := None;
     par_alignment := None;
     par_spacing_before := Some 200%Z;
     par_spacing_after := Some 200%Z;
     par_indent_left := Some 720%Z;
     par_border := Some (mkBorder BorderLeft "007bff" 6 "single");
     par_shading := None |}.

Definition createCodeBlock (text : string) : Paragraph :=
  {| par_children :=
       [ {| run_text := text; run_bold := None; run_italics := None;
            run_underline := false; run_strike := None;
            run_font := Some "Courier New"; run_size := Some 18%Z;
            run_color := None; run_shading := None |} ];
     par_heading := None;
     par_alignment := None;
     par_spacing_before := Some 200%Z;
     par_spacing_after := Some 200%Z;
     par_indent_left := None;
     par_border := None;
     par_shading := Some "f4f4f4" |}.

(** [rowIndex === 0 || cell.tagName.toLowerCase() === 'th'] *)
Definition isHeader (rowIndex : nat) (cell : Element) : bool :=
  (rowIndex =? 0) || hasTag "th" cell.

Definition createCell (rowIndex : nat) (cell : Element) : TableCell :=
  let isHeader := isHeader rowIndex cell in
  {| cell_children :=
       [ {| par_children :=
              [ {| run_text := textContent cell; run_bold := Some isHeader;
                   run_italics := None; run_underline := false;
                   run_strike := None; run_font := None; run_size := None;
                   run_color := None; run_shading := None |} ];
            par_heading := None; par_alignment := None;
            par_spacing_before := None; par_spacing_after := None;
            par_indent_left := None; par_border := None;
            par_shading := None |} ];
     cell_shading := if isHeader then Some "f8f9fa" else None |}.

Definition createRow (rowIndex : nat) (row : Element) : TableRow :=
  {| row_children := map (createCell rowIndex) (cells row) |}.

(** The [forEach((row, rowIndex) => ...)] of [createTable], started at
    [rowIndex]. *)
Fixpoint createRowsFrom (rowIndex : nat) (rs : list Element) : list TableRow :=
  match rs with
  | [] => []
  | row :: r => createRow rowIndex row :: createRowsFrom (S rowIndex) r
  end.

Definition createTable (tableElement : Element) : Table :=
  {| table_rows := createRowsFrom 0 (rows tableElement);
     table_width_size := 100;
     table_width_type := PERCENTAGE |}.

Definition createHorizontalRule : Paragraph :=
  {| par_children := [plainRun ""];
     par_heading := None;
     par_alignment := None;
     par_spacing_before := Some 200%Z;
     par_spacing_after := Some 200%Z;
     par_indent_left := None;
     par_border := Some (mkBorder BorderBottom "e9ecef" 6 "single");
     par_shading := None |}.

(** The tags the [switch] of [processHtmlElements] has a case for. *)
Definition recognizedTags : list string :=
  ["h1"; "h2"; "h3"; "h4"; "h5"; "h6"; "p"; "ul"; "ol"; "blockquote"; "pre";
   "table"; "hr"].

Definition recognized (tag : string) : bool :=
  existsb (String.eqb tag) recognizedTags.

(** The body of the [forEach] of [processHtmlElements]: the blocks pushed
    for one top-level element. *)
Definition processElement (element : Element) : list Block :=
  let tag := lowerTag element in
  let text := textContent element in
  if (tag =? "h1")%string then [BParagraph (createHeading text HEADING_1)]
  else if (tag =? "h2")%string then [BParagraph (createHeading text HEADING_2)]
  else if (tag =? "h3")%string then [BParagraph (createHeading text HEADING_3)]
  else if (tag =? "h4")%string then [BParagraph (createHeading text HEADING_4)]
  else if (tag =? "h5")%string then [BParagraph (createHeading text HEADING_5)]
  else if (tag =? "h6")%string then [BParagraph (createHeading text HEADING_6)]
  else if (tag =? "p")%string then [BParagraph (createParagraph element)]
  else if ((tag =? "ul") || (tag =? "ol"))%string then
    map BParagraph (createList element)
  else if (tag =? "blockquote")%string then [BParagraph (createBlockquote text)]
  else if (tag =? "pre")%string then [BParagraph (createCodeBlock text)]
  else if (tag =? "table")%string then [BTable (createTable element)]
  else if (tag =? "hr")%string then [BParagraph createHorizontalRule]
  else
    if JsString.truthy (JsString.trim text)
    then [BParagraph (createParagraph element)]
    else [].

Definition processHtmlElements (elements : list Element) : list Block :=
  flat_map processElement elements.

(** A few runs of the formatters. *)

Example toLowerCase_run : JsString.toLowerCase "BlockQuote" = "blockquote".
Proof. reflexivity. Qed.

Example trim_run : JsString.trim (String "009" " a b  ") = "a b".
Proof. reflexivity. Qed.

(** The no-break space, the line separator and the Kelvin sign. *)
Definition nbsp : string := String "194" (String "160" "").

Definition lineSeparator : string :=
  String "226" (String "128" (String "168" "")).

Definition kelvin : string := String "226" (String "132" (String "170" "")).

Example trim_unicode_run :
  JsString.trim (nbsp ++ " a" ++ nbsp ++ "b " ++ lineSeparator)
  = ("a" ++ nbsp ++ "b")%string.
Proof. reflexivity. Qed.

Example toLowerCase_kelvin_run :
  JsString.toLowerCase ("BLOC" ++ kelvin ++ "QUOTE") = "blockquote".
Proof. reflexivity. Qed.

Example ofNat_run : JsString.ofNat 12 = "12".
Proof. reflexivity. Qed.

Example textContent_run :
  textContent
    (mkElement "P"
       [TextNode "Hello "; ElementNode (mkElement "B" [TextNode "world"]);
        CommentNode "note"])
  = "Hello world".
Proof. reflexivity. Qed.

Example plain_paragraph_run :
  processHtmlElements [mkElement "P" [TextNode "Hello world"]]
  = [BParagraph
       {| par_children := [plainRun "Hello world"];
          par_heading := None; par_alignment := None;
          par_spacing_before := None; par_spacing_after := Some 200%Z;
          par_indent_left := None; par_border := None;
          par_shading := None |}].
Proof. reflexivity. Qed.

Example inline_runs_run :
  map run_bold
      (processInlineElements
         (mkElement "P"
            [TextNode "a "; ElementNode (mkElement "STRONG" [TextNode "b"]);
             ElementNode (mkElement "SPAN" [TextNode " "])])
         [])
  = [None; Some true].
Proof. reflexivity. Qed.

(** ** The document assembler *)

Record ExportOptions : Type := mkOptions {
  includeMetadata : option bool;
  customFilename : option string
}.

(** Truthiness of an optional boolean option. *)
Definition isSet (b : option bool) : bool :=
  match b with Some true => true | _ => false end.

Definition centered (text : string) (size : Z) (color : string)
    (before after : option Z) : Paragraph :=
  {| par_children :=
       [ {| run_text := text; run_bold := None; run_italics := None;
            run_underline := false; run_strike := None; run_font := None;
            run_size := Some size; run_color := Some color;
            run_shading := None |} ];
     par_heading := None;
     par_alignment := Some CENTER;
     par_spacing_before := before;
     par_spacing_after := after;
     par_indent_left := None;
     par_border := None;
     par_shading := None |}.

(** The title section [createDocxFromHtml] pushes first. *)
Definition titleBlock (title : string) : Paragraph :=
  {| par_children :=
       [ {| run_text := title; run_bold := Some true; run_italics := None;
            run_underline := false; run_strike := None; run_font := None;
            run_size := Some 32%Z; run_color := None; run_shading := None |} ];
     par_heading := Some TITLE;
     par_alignment := Some CENTER;
     par_spacing_before := None;
     par_spacing_after := Some 400%Z;
     par_indent_left := None;
     par_border := None;
     par_shading := None |}.

(** The two readings of the ambient time, already formatted for the
    locale: the one of the metadata block and the one of the footer. *)
Record Clock : Type := mkClock {
  nowDate : string;
  nowTime : string;
  footerDate : string
}.

Definition timestampBlock (clock : Clock) : Paragraph :=
  centered ("Exported: " ++ nowDate clock ++ " " ++ nowTime clock)%string
           18 "666666" None (Some 400%Z).

Definition formatBlock : Paragraph :=
  centered "Format: Microsoft Word Document" 18 "666666" None (Some 800%Z).

Definition metadataBlocks (clock : Clock) : list Block :=
  [BParagraph (timestampBlock clock); BParagraph formatBlock].

Definition footerBlock (clock : Clock) : Paragraph :=
  centered ("Generated by BOFU Article Editor on " ++ footerDate clock)%string
           16 "999999" (Some 800%Z) None.

(** The array [sections] of [createDocxFromHtml] once the footer is pushed,
    for the parsed body children [body]. *)
Definition documentSections (clock : Clock) (body : list Element)
    (title : string) (options : ExportOptions) : list Block :=
  [BParagraph (titleBlock title)]
  ++ (if isSet (includeMetadata options) then metadataBlocks clock else [])
  ++ processHtmlElements body
  ++ [BParagraph (footerBlock clock)].

Definition assembleDocument (clock : Clock) (body : list Element)
    (title : string) (options : ExportOptions) : Document :=
  {| doc_creator := "BOFU Article Editor";
     doc_title := title;
     doc_description := ("Exported article: " ++ title)%string;
     doc_children := documentSections clock body title options |}.

(** ** Effects: thrown values, the trace of side effects, the monad *)

(** A thrown value either is an [Error] instance, with its [message], or
    is not. *)
Inductive Thrown : Type :=
| ErrorInstance (message : string)
| NotAnError (shown : string).

Inductive Outcome (A : Type) : Type :=
| Returned (a : A)
| Threw (t : Thrown).
Arguments Returned {A} a.
Arguments Threw {A} t.

Definition Editor : Type := nat.
Definition Blob : Type := string.

Inductive Event : Type :=
| EditorCreated (e : Editor)
| EditorDestroyed (e : Editor)
| SaveAs (b : Blob) (filename : string)
| ConsoleError (t : Thrown).

Definition Trace : Type := list Event.

(** A computation reads the trace so far and extends it; what was done
    before a throw stays done. *)
Definition M (A : Type) : Type := Trace -> Outcome A * Trace.

Definition ret {A} (a : A) : M A := fun w => (Returned a, w).

Definition throw {A} (t : Thrown) : M A := fun w => (Threw t, w).

Definition bind {A B} (c : M A) (k : A -> M B) : M B :=
  fun w =>
    match c w with
    | (Returned a, w') => k a w'
    | (Threw t, w') => (Threw t, w')
    end.

Definition tryCatch {A} (c : M A) (handler : Thrown -> M A) : M A :=
  fun w =>
    match c w with
    | (Returned a, w') => (Returned a, w')
    | (Threw t, w') => handler t w'
    end.

Definition emit (ev : Event) : M unit := fun w => (Returned tt, w ++ [ev]).

(** A call whose result the environment decides. *)
Definition call {A} (o : Outcome A) : M A := fun w => (o, w).

Declare Scope export_scope.
Delimit Scope export_scope with export.
Notation "x <- c ;; k" := (bind c (fun x => k))
  (at level 61, c at next level, right associativity) : export_scope.
Notation "' pat <- c ;; k" :=
  (bind c (fun x => match x with pat => k end))
  (at level 61, pat pattern, c at next level, right associativity)
  : export_scope.
Notation "c ;;; k" := (bind c (fun _ => k))
  (at level 61, right associativity) : export_scope.
Local Open Scope export_scope.

(** ** The content shapes and the collaborators *)

(** A TipTap document object, kept in serialized form. *)
Inductive JSONContent : Type :=
| mkJSON (serialized : string).

(** An object passed as [content].  A field is [None] when it is absent;
    [editor] is [Some e] exactly when the field holds an instance of
    [Editor]. *)
Record ContentObject : Type := mkContentObject {
  editor : option Editor;
  html : option string;
  json : option JSONContent;
  title : option string;
  articleId : option string
}.

Inductive Content : Type :=
| ContentString (s : string)
| ContentNumber (n : Z)
| ContentBoolean (b : bool)
| ContentNullish
| ContentObj (o : ContentObject).

Record ExportMetadata : Type := mkMetadata {
  meta_format : string;
  meta_checksum : string;
  meta_articleId : option string;
  meta_title : string
}.

Record ExportResult : Type := mkResult {
  success : bool;
  filename : option string;
  blob : option Blob;
  metadata : option ExportMetadata;
  error : option string
}.

(** What the export relies on and does not define: the editor, the markup
    parser, the binary serializer, the file-save facility, the clock and the
    two helpers inherited from [ExportStrategy]. *)
Record Collaborators : Type := mkCollaborators {
  newEditor : JSONContent -> Outcome Editor;
  getHTML : Editor -> Outcome string;
  parseBody : string -> list Element;
  clock : Clock;
  toBlob : Document -> Outcome Blob;
  generateFilename : string -> string -> option string -> Outcome string;
  saveAs : Blob -> string -> Outcome unit;
  createMetadata :
    string -> string -> option string -> string -> Outcome ExportMetadata
}.

(** ** The export orchestrator *)

Section Orchestrator.

Variable env : Collaborators.

Definition unsupportedMessage : string :=
  "Unsupported content format for DOCX export".

Definition unknownMessage : string := "Unknown DOCX export error".

Definition defaultTitle : string := "Untitled Article".

(** [new Editor({ content, editable: false })] *)
Definition constructEditor (doc : JSONContent) : M Editor :=
  e <- call (newEditor env doc) ;;
  emit (EditorCreated e) ;;;
  ret e.

(** [tempEditor.destroy()] *)
Definition destroy (e : Editor) : M unit := emit (EditorDestroyed e).

(** [content?.html], [content?.json] and the like: the field of an
    object, nothing for every other value. *)
Definition field {A} (f : ContentObject -> option A) (content : Content)
  : option A :=
  match content with
  | ContentObj o => f o
  | _ => None
  end.

(** The last two branches of the chain of [if]s at the head of [export]:
    the structured document, read through a temporary editor, or the
    error. *)
Definition fromJson (content : Content) : M (string * string) :=
  match field json content with
  | Some doc =>
      tempEditor <- constructEditor doc ;;
      htmlContent <- call (getHTML env tempEditor) ;;
      destroy tempEditor ;;;
      ret (htmlContent, JsString.orElse (field title content) defaultTitle)
  | None => throw (ErrorInstance unsupportedMessage)
  end.

(** The chain of [if]s at the head of [export]: the markup and the
    title. *)
Definition normalize (content : Content) : M (string * string) :=
  match content with
  | ContentString s => ret (s, defaultTitle)
  | _ =>
      match field editor content with
      | Some ed =>
          htmlContent <- call (getHTML env ed) ;;
          ret (htmlContent, JsString.orElse (field title content) defaultTitle)
      | None =>
          match field html content with
          | Some h =>
              if JsString.truthy h then
                ret (h, JsString.orElse (field title content) defaultTitle)
              else fromJson content
          | None => fromJson content
          end
      end
  end.

Definition createDocxFromHtml (htmlContent title : string)
    (options : ExportOptions) : M Blob :=
  call (toBlob env
          (assembleDocument (clock env) (parseBody env htmlContent)
                            title options)).

(** The [try] block of [export]. *)
Definition exportBody (content : Content) (options : ExportOptions)
  : M ExportResult :=
  '(htmlContent, articleTitle) <- normalize content ;;
  docxBlob <- createDocxFromHtml htmlContent articleTitle options ;;
  filename <- call (generateFilename env articleTitle "docx"
                                     (customFilename options)) ;;
  emit (SaveAs docxBlob filename) ;;;
  call (saveAs env docxBlob filename) ;;;
  metadata <- call (createMetadata env "docx" "" (field articleId content)
                                   articleTitle) ;;
  ret {| success := true; filename := Some filename; blob := Some docxBlob;
         metadata := Some metadata; error := None |}.

(** [error instanceof Error ? error.message : 'Unknown DOCX export error'] *)
Definition errorMessage (t : Thrown) : string :=
  match t with
  | ErrorInstance message => message
  | NotAnError _ => unknownMessage
  end.

Definition failure (t : Thrown) : ExportResult :=
  {| success := false; filename := None; blob := None; metadata := None;
     error := Some (errorMessage t) |}.

(** The [catch] block of [export]. *)
Definition handler (t : Thrown) : M ExportResult :=
  emit (ConsoleError t) ;;;
  ret (failure t).

Definition export (content : Content) (options : ExportOptions)
  : M ExportResult :=
  tryCatch (exportBody content options) handler.

End Orchestrator.

(** * Properties *)

(** ** Observations on the produced blocks *)

(** The font size of a block made of a single run. *)
Definition fontSize (p : Paragraph) : option Z :=
  match par_children p with
  | [r] => run_size r
  | _ => None
  end.

(** The heading levels a source element can have, in increasing order,
    and the tag of each. *)
Definition sourceLevels : list HeadingLevel :=
  [HEADING_1; HEADING_2; HEADING_3; HEADING_4; HEADING_5; HEADING_6].

Definition levelTag (level : HeadingLevel) : string :=
  match level with
  | HEADING_1 => "h1" | HEADING_2 => "h2" | HEADING_3 => "h3"
  | HEADING_4 => "h4" | HEADING_5 => "h5" | HEADING_6 => "h6"
  | TITLE => "title"
  end.

(** ** Headings *)

Lemma createHeading_fontSize (text : string) (level : HeadingLevel) :
  fontSize (createHeading text level) = Some (headingFontSize level).
Proof. reflexivity. Qed.

Lemma processElement_heading (element : Element) (level : HeadingLevel) :
  In level sourceLevels ->
  lowerTag element = levelTag level ->
  processElement element
  = [BParagraph (createHeading (textContent element) level)].
Proof.
  intros Hin Htag. unfold processElement. rewrite Htag.
  simpl in Hin.
  repeat (destruct Hin as [<- | Hin]; [reflexivity |]).
  contradiction.
Qed.

Lemma sourceLevels_decreasing :
  StronglySorted Z.gt (map headingFontSize sourceLevels).
Proof.
  simpl. repeat (constructor; [| repeat constructor; lia]). constructor.
Qed.

(** C5, as the code has it: a heading element of level 1 to 6 yields a
    block whose font size is read off the fixed table 32, 28, 26, 24, 22,
    20, strictly decreasing as the level increases, and the table's entry
    for the title level, 36, is strictly larger than all of them.  The
    Title block that opens the document is not built through the table: its
    font size is the constant 32, which equals the size of heading level 1
    and is strictly larger than the sizes of levels 2 to 6 only. *)
Theorem heading_font_sizes :
  (forall element level,
      In level sourceLevels ->
      lowerTag element = levelTag level ->
      exists p,
        processElement element = [BParagraph p]
        /\ par_heading p = Some level
        /\ fontSize p = Some (headingFontSize level))
  /\ map headingFontSize sourceLevels = [32; 28; 26; 24; 22; 20]%Z
  /\ StronglySorted Z.gt (map headingFontSize sourceLevels)
  /\ Forall (fun level => (headingFontSize level < headingFontSize TITLE)%Z)
            sourceLevels
  /\ (forall title, fontSize (titleBlock title) = Some 32%Z)
  /\ headingFontSize HEADING_1 = 32%Z
  /\ Forall (fun level => (headingFontSize level < 32)%Z) (tl sourceLevels).
Proof.
  split.
  { intros element level Hin Htag.
    exists (createHeading (textContent element) level).
    split; [apply processElement_heading; assumption |].
    split; [reflexivity | apply createHeading_fontSize]. }
  split; [reflexivity |].
  split; [apply sourceLevels_decreasing |].
  split; [repeat constructor |].
  split; [reflexivity |].
  split; [reflexivity |].
  repeat constructor.
Qed.

Lemma heading_font_sizes_witness :
  exists p,
    processElement (mkElement "H2" [TextNode "Pricing"]) = [BParagraph p]
    /\ par_heading p = Some HEADING_2
    /\ fontSize p = Some 28%Z.
Proof.
  destruct heading_font_sizes as [Helement _].
  apply (Helement (mkElement "H2" [TextNode "Pricing"]) HEADING_2).
  - simpl. auto.
  - reflexivity.
Defined.

(** C5, as stated, fails: the Title block of a document has the font size
    of a level-1 heading, not a strictly larger one. *)
Lemma title_block_not_larger_than_heading_1 :
  exists a b,
    fontSize (titleBlock "Quarterly report") = Some a
    /\ fontSize (createHeading "Introduction" HEADING_1) = Some b
    /\ ~ (b < a)%Z.
Proof.
  exists 32%Z, 32%Z. repeat split. lia.
Qed.

(** ** The metadata toggle *)

(** C7: without [includeMetadata] (absent or [false]) the sections are the
    Title block, the body blocks and the footer, so the block after the
    Title block is the first body block; with [includeMetadata] set, exactly
    two blocks stand between the Title block and the body, the
    export-timestamp line first and the format label second. *)
Theorem metadata_toggle (clock : Clock) (body : list Element) (title : string)
    (custom : option string) :
  documentSections clock body title (mkOptions (Some false) custom)
  = BParagraph (titleBlock title)
      :: processHtmlElements body ++ [BParagraph (footerBlock clock)]
  /\ documentSections clock body title (mkOptions None custom)
     = BParagraph (titleBlock title)
         :: processHtmlElements body ++ [BParagraph (footerBlock clock)]
  /\ documentSections clock body title (mkOptions (Some true) custom)
     = BParagraph (titleBlock title)
         :: BParagraph (timestampBlock clock)
         :: BParagraph formatBlock
         :: processHtmlElements body ++ [BParagraph (footerBlock clock)]
  /\ run_text (hd (plainRun "") (par_children (timestampBlock clock)))
     = ("Exported: " ++ nowDate clock ++ " " ++ nowTime clock)%string
  /\ run_text (hd (plainRun "") (par_children formatBlock))
     = "Format: Microsoft Word Document".
Proof.
  repeat split.
Qed.

(** ** Paragraphs *)

Lemma createParagraph_children (element : Element) :
  par_children (createParagraph element)
  = match processInlineElements element [] with
    | [] => [plainRun (textContent element)]
    | r :: rs => r :: rs
    end.
Proof.
  unfold createParagraph. cbn [par_children].
  destruct (processInlineElements element []); reflexivity.
Qed.

(** C8: a body made of one empty paragraph element yields one Paragraph
    block with exactly one run, whose text is the empty string; no
    paragraph block has zero runs, since when the inline formatter yields
    no run the block gets a single plain run with the flattened text of the
    element. *)
Theorem paragraph_never_empty :
  (forall tag,
      JsString.toLowerCase tag = "p" ->
      exists p,
        processHtmlElements [mkElement tag []] = [BParagraph p]
        /\ par_children p = [plainRun ""])
  /\ (forall element, par_children (createParagraph element) <> [])
  /\ (forall element,
        processInlineElements element [] = [] ->
        par_children (createParagraph element)
        = [plainRun (textContent element)]).
Proof.
  split; [| split].
  - intros tag Htag. eexists. split.
    + unfold processHtmlElements, processElement, lowerTag. simpl.
      rewrite Htag. simpl. reflexivity.
    + reflexivity.
  - intros element. rewrite createParagraph_children.
    destruct (processInlineElements element []); discriminate.
  - intros element Hnone. rewrite createParagraph_children, Hnone.
    reflexivity.
Qed.

Lemma paragraph_never_empty_witness :
  (exists p,
      processHtmlElements [mkElement "P" []] = [BParagraph p]
      /\ par_children p = [plainRun ""])
  /\ par_children (createParagraph (mkElement "P" [TextNode "   "]))
     = [plainRun "   "].
Proof.
  destruct paragraph_never_empty as [Hempty [_ Hfallback]].
  split.
  - apply (Hempty "P"). reflexivity.
  - apply (Hfallback (mkElement "P" [TextNode "   "])). reflexivity.
Defined.

(** ** Elements without a case of their own *)

Lemma recognized_false_cases (tag : string) :
  recognized tag = false ->
  (tag =? "h1")%string = false /\ (tag =? "h2")%string = false
  /\ (tag =? "h3")%string = false /\ (tag =? "h4")%string = false
  /\ (tag =? "h5")%string = false /\ (tag =? "h6")%string = false
  /\ (tag =? "p")%string = false /\ (tag =? "ul")%string = false
  /\ (tag =? "ol")%string = false /\ (tag =? "blockquote")%string = false
  /\ (tag =? "pre")%string = false /\ (tag =? "table")%string = false
  /\ (tag =? "hr")%string = false.
Proof.
  unfold recognized, recognizedTags. cbn [existsb].
  intros H. repeat (apply orb_false_elim in H; destruct H as [? H]).
  repeat split; assumption.
Qed.

Lemma processElement_default (element : Element) :
  recognized (lowerTag element) = false ->
  processElement element
  = if JsString.truthy (JsString.trim (textContent element))
    then [BParagraph (createParagraph element)]
    else [].
Proof.
  intros H. apply recognized_false_cases in H.
  destruct H as (H1 & H2 & H3 & H4 & H5 & H6 & Hp & Hul & Hol & Hbq & Hpre
                 & Htab & Hhr).
  unfold processElement.
  rewrite H1, H2, H3, H4, H5, H6, Hp, Hul, Hol, Hbq, Hpre, Htab, Hhr.
  reflexivity.
Qed.

Lemma truthy_true_iff (s : string) : JsString.truthy s = true <-> s <> "".
Proof. destruct s; simpl; split; congruence. Qed.

Lemma truthy_false_iff (s : string) : JsString.truthy s = false <-> s = "".
Proof. destruct s; simpl; split; congruence. Qed.

(** C9, as the code has it: a top-level element whose tag has no case of
    its own is treated as a paragraph and yields one Paragraph block when
    its flattened text is not blank, that is, not empty once white space is
    trimmed from both ends; when its flattened text is blank (empty or
    white space only) it yields no block. *)
Theorem unrecognized_element (element : Element) :
  recognized (lowerTag element) = false ->
  (JsString.trim (textContent element) <> "" ->
   processElement element = [BParagraph (createParagraph element)])
  /\ (JsString.trim (textContent element) = "" ->
      processElement element = []).
Proof.
  intros H. rewrite (processElement_default _ H). split; intros Ht.
  - apply truthy_true_iff in Ht. rewrite Ht. reflexivity.
  - apply truthy_false_iff in Ht. rewrite Ht. reflexivity.
Qed.

Lemma unrecognized_element_witness :
  processElement (mkElement "DIV" [TextNode "note"])
  = [BParagraph (createParagraph (mkElement "DIV" [TextNode "note"]))]
  /\ processElement (mkElement "DIV" []) = [].
Proof.
  split.
  - apply (unrecognized_element (mkElement "DIV" [TextNode "note"]));
      [reflexivity | discriminate].
  - apply (unrecognized_element (mkElement "DIV" [])); reflexivity.
Defined.

(** C9, as stated, fails: a [div] that holds a single space has a non-empty
    flattened text and a tag without a case of its own, and yet yields no
    block. *)
Lemma blank_element_yields_no_block :
  let element := mkElement "DIV" [TextNode " "] in
  recognized (lowerTag element) = false
  /\ textContent element <> ""
  /\ processElement element = [].
Proof.
  simpl. repeat split. discriminate.
Qed.

(** The gate is the [trim] of JavaScript: a no-break space is white space
    too, and a tag is recognized through its lower-case form. *)
Example nbsp_element_yields_no_block :
  processElement (mkElement "DIV" [TextNode nbsp]) = [].
Proof. reflexivity. Qed.

Example kelvin_tag_is_recognized :
  processElement (mkElement ("BLOC" ++ kelvin ++ "QUOTE") [TextNode "so"])
  = [BParagraph (createBlockquote "so")].
Proof. reflexivity. Qed.

(** ** Tables *)

(** Every run of the cell is bold. *)
Definition boldText (c : TableCell) : bool :=
  forallb (fun p =>
             forallb (fun r => match run_bold r with
                               | Some true => true
                               | _ => false
                               end)
                     (par_children p))
          (cell_children c).

(** The cell has a background fill. *)
Definition shaded (c : TableCell) : bool :=
  match cell_shading c with Some _ => true | None => false end.

Lemma createCell_styling (rowIndex : nat) (cell : Element) :
  boldText (createCell rowIndex cell) = isHeader rowIndex cell
  /\ shaded (createCell rowIndex cell) = isHeader rowIndex cell.
Proof.
  unfold boldText, shaded, createCell. simpl.
  destruct (isHeader rowIndex cell); split; reflexivity.
Qed.

Lemma isHeader_iff (rowIndex : nat) (cell : Element) :
  isHeader rowIndex cell = true <-> rowIndex = 0 \/ lowerTag cell = "th".
Proof.
  unfold isHeader, hasTag.
  rewrite orb_true_iff, Nat.eqb_eq, String.eqb_eq. reflexivity.
Qed.

Lemma createRowsFrom_nth (rs : list Element) :
  forall start r,
    nth_error (createRowsFrom start rs) r
    = option_map (createRow (start + r)) (nth_error rs r).
Proof.
  induction rs as [| row rs IH]; intros start r.
  - destruct r; reflexivity.
  - destruct r as [| r]; simpl.
    + rewrite Nat.add_0_r. reflexivity.
    + rewrite IH. f_equal. f_equal. lia.
Qed.

Lemma createRow_nth (rowIndex : nat) (row : Element) (c : nat) :
  nth_error (row_children (createRow rowIndex row)) c
  = option_map (createCell rowIndex) (nth_error (cells row) c).
Proof.
  unfold createRow. simpl. apply nth_error_map.
Qed.

(** C6: in the table block of a table element, the cell produced for the
    cell at position [c] of row [r] is header-styled (its text bold, its
    background shaded) if and only if [r] is 0 or the cell's tag is [th],
    and is neither bold nor shaded otherwise; the styled cell depends on
    the row index and the cell alone, so wherever a permutation of the row
    places the cell it gets the same result. *)
Theorem table_header_styling :
  (forall tableElement r c row cell,
      nth_error (rows tableElement) r = Some row ->
      nth_error (cells row) c = Some cell ->
      exists outRow out,
        nth_error (table_rows (createTable tableElement)) r = Some outRow
        /\ nth_error (row_children outRow) c = Some out
        /\ boldText out = isHeader r cell
        /\ shaded out = isHeader r cell
        /\ (isHeader r cell = true <-> r = 0 \/ lowerTag cell = "th"))
  /\ (forall r row row' i j cell,
        Permutation (cells row) (cells row') ->
        nth_error (cells row) i = Some cell ->
        nth_error (cells row') j = Some cell ->
        nth_error (row_children (createRow r row)) i
        = nth_error (row_children (createRow r row')) j
        /\ Permutation (row_children (createRow r row))
                       (row_children (createRow r row'))).
Proof.
  split.
  - intros tableElement r c row cell Hrow Hcell.
    exists (createRow r row), (createCell r cell).
    split; [| split; [| split; [| split]]].
    + unfold createTable. simpl. rewrite createRowsFrom_nth, Hrow. reflexivity.
    + rewrite createRow_nth, Hcell. reflexivity.
    + apply createCell_styling.
    + apply createCell_styling.
    + apply isHeader_iff.
  - intros r row row' i j cell Hperm Hi Hj. split.
    + rewrite !createRow_nth, Hi, Hj. reflexivity.
    + unfold createRow. simpl. apply Permutation_map. exact Hperm.
Qed.

Definition sampleTable : Element :=
  mkElement "TABLE"
    [ElementNode
       (mkElement "TBODY"
          [ElementNode
             (mkElement "TR"
                [ElementNode (mkElement "TD" [TextNode "name"]);
                 ElementNode (mkElement "TD" [TextNode "price"])]);
           ElementNode
             (mkElement "TR"
                [ElementNode (mkElement "TH" [TextNode "tea"]);
                 ElementNode (mkElement "TD" [TextNode "3"])])])].

Definition sampleRow : Element :=
  mkElement "TR"
    [ElementNode (mkElement "TH" [TextNode "tea"]);
     ElementNode (mkElement "TD" [TextNode "3"])].

Definition sampleRowSwapped : Element :=
  mkElement "TR"
    [ElementNode (mkElement "TD" [TextNode "3"]);
     ElementNode (mkElement "TH" [TextNode "tea"])].

Lemma table_header_styling_witness :
  (exists outRow out,
      nth_error (table_rows (createTable sampleTable)) 1 = Some outRow
      /\ nth_error (row_children outRow) 1 = Some out
      /\ boldText out = false
      /\ shaded out = false
      /\ (false = true <->
          1 = 0 \/ lowerTag (mkElement "TD" [TextNode "3"]) = "th"))
  /\ nth_error (row_children (createRow 1 sampleRow)) 0
     = nth_error (row_children (createRow 1 sampleRowSwapped)) 1.
Proof.
  destruct table_header_styling as [Hcell Hperm]. split.
  - apply (Hcell sampleTable 1 1 sampleRow (mkElement "TD" [TextNode "3"]));
      reflexivity.
  - apply (Hperm 1 sampleRow sampleRowSwapped 0 1
                 (mkElement "TH" [TextNode "tea"])).
    + apply perm_swap.
    + reflexivity.
    + reflexivity.
Defined.

(** ** Lists *)

(** The texts of the runs of each paragraph. *)
Definition texts (ps : list Paragraph) : list (list string) :=
  map (fun p => map run_text (par_children p)) ps.

(** The list items among the children of a list element. *)
Definition items (listElement : Element) : list Element :=
  filter (hasTag "li") (children listElement).

Lemma createListFrom_length (isOrdered : bool) (cs : list Element) :
  forall index,
    List.length (createListFrom isOrdered index cs)
    = List.length (filter (hasTag "li") cs).
Proof.
  induction cs as [| li cs IH]; intros index; simpl.
  - reflexivity.
  - destruct (hasTag "li" li); simpl; rewrite IH; reflexivity.
Qed.

(** X1: one block per [li] child, whatever else the list holds. *)
Lemma createList_length (listElement : Element) :
  List.length (createList listElement) = List.length (items listElement).
Proof. apply createListFrom_length. Qed.

Lemma createListFrom_unordered (cs : list Element) :
  forall index,
    createListFrom false index cs
    = map (listItem false 0) (filter (hasTag "li") cs).
Proof.
  induction cs as [| li cs IH]; intros index; simpl.
  - reflexivity.
  - destruct (hasTag "li" li); simpl; rewrite IH; reflexivity.
Qed.

(** X2: in an unordered list every marker is the bullet glyph. *)
Lemma createList_unordered (listElement : Element) :
  hasTag "ol" listElement = false ->
  texts (createList listElement)
  = map (fun li => ["• " ++ textContent li]%string) (items listElement).
Proof.
  intros Hul. unfold createList, items. rewrite Hul.
  rewrite createListFrom_unordered. unfold texts. rewrite map_map.
  reflexivity.
Qed.

Lemma createListFrom_ordered_items (cs : list Element) :
  forallb (hasTag "li") cs = true ->
  forall index,
    createListFrom true index cs
    = map (fun p => listItem true (fst p) (snd p))
          (combine (seq index (List.length cs)) cs).
Proof.
  induction cs as [| li cs IH]; intros Hall index; simpl.
  - reflexivity.
  - simpl in Hall. apply andb_true_iff in Hall. destruct Hall as [Hli Hall].
    rewrite Hli. simpl. rewrite (IH Hall). reflexivity.
Qed.

Lemma append_assoc (a b c : string) :
  ((a ++ b) ++ c = a ++ (b ++ c))%string.
Proof.
  induction a as [| x a IH]; simpl; [reflexivity | rewrite IH; reflexivity].
Qed.

(** X3: in an ordered list whose element children are all [li], the markers
    are 1., 2., ... in source order: the child at position [i], counted
    from 0, gets the marker [i + 1]. *)
Lemma createList_ordered_items (listElement : Element) :
  hasTag "ol" listElement = true ->
  forallb (hasTag "li") (children listElement) = true ->
  texts (createList listElement)
  = map (fun p =>
           [JsString.ofNat (fst p + 1) ++ ". " ++ textContent (snd p)]%string)
        (combine (seq 0 (List.length (children listElement)))
                 (children listElement)).
Proof.
  intros Hol Hall. unfold createList. rewrite Hol.
  rewrite (createListFrom_ordered_items _ Hall). unfold texts.
  rewrite map_map. apply map_ext. intros [i li]. simpl.
  unfold bulletText. rewrite append_assoc. reflexivity.
Qed.

Definition interleavedList : Element :=
  mkElement "OL"
    [ElementNode (mkElement "DIV" [TextNode "x"]);
     ElementNode (mkElement "LI" [TextNode "a"]);
     ElementNode (mkElement "LI" [TextNode "b"])].

(** C2 at an ordered list whose first child is not a list item: the two
    [li] children yield two blocks, and their markers are 2. and 3., not
    1. and 2., because the marker is the position among all the element
    children of the list. *)
Theorem ordered_list_counts_every_child :
  items interleavedList
  = [mkElement "LI" [TextNode "a"]; mkElement "LI" [TextNode "b"]]
  /\ texts (createList interleavedList) = [["2. a"]; ["3. b"]].
Proof.
  split; reflexivity.
Qed.

(** ** The orchestrator *)

(** How many times the trace destroys the editor [e]. *)
Definition isDestroyOf (e : Editor) (ev : Event) : bool :=
  match ev with
  | EditorDestroyed e' => e' =? e
  | _ => false
  end.

Definition destroyCount (e : Editor) (w : Trace) : nat :=
  List.length (filter (isDestroyOf e) w).

(** The calls of the file-save facility in the trace. *)
Definition isSave (ev : Event) : bool :=
  match ev with SaveAs _ _ => true | _ => false end.

Definition saves (w : Trace) : Trace := filter isSave w.

Lemma destroyCount_app (e : Editor) (w1 w2 : Trace) :
  destroyCount e (w1 ++ w2) = destroyCount e w1 + destroyCount e w2.
Proof.
  unfold destroyCount. rewrite filter_app, length_app. reflexivity.
Qed.

Lemma saves_app (w1 w2 : Trace) : saves (w1 ++ w2) = saves w1 ++ saves w2.
Proof. apply filter_app. Qed.

(** What [export] does once the [try] block has thrown [t]. *)
Lemma export_of_throw (env : Collaborators) (content : Content)
    (options : ExportOptions) (w w' : Trace) (t : Thrown) :
  exportBody env content options w = (Threw t, w') ->
  export env content options w
  = (Returned (failure t), w' ++ [ConsoleError t]).
Proof.
  intros Hbody. unfold export, tryCatch. rewrite Hbody. reflexivity.
Qed.

Lemma exportBody_of_normalize_throw (env : Collaborators) (content : Content)
    (options : ExportOptions) (w w' : Trace) (t : Thrown) :
  normalize env content w = (Threw t, w') ->
  exportBody env content options w = (Threw t, w').
Proof.
  intros Hnorm. unfold exportBody, bind at 1. rewrite Hnorm. reflexivity.
Qed.

(** C3: exporting the content [42] returns the failure result whose error
    is exactly the unsupported-format message, with no binary artifact,
    and calls the file-save facility not once. *)
Theorem export_42_unsupported (env : Collaborators) (options : ExportOptions)
    (w : Trace) :
  fst (export env (ContentNumber 42) options w)
  = Returned {| success := false; filename := None; blob := None;
                metadata := None;
                error := Some "Unsupported content format for DOCX export" |}
  /\ saves (snd (export env (ContentNumber 42) options w)) = saves w.
Proof.
  split.
  - reflexivity.
  - change (snd (export env (ContentNumber 42) options w))
      with (w ++ [ConsoleError (ErrorInstance unsupportedMessage)]).
    rewrite saves_app. simpl. apply app_nil_r.
Qed.

(** C4, as the code has it: [export] returns a result for every content
    and every options and throws nothing: the result is the one of the
    [try] block when that returns, and when that throws it is a failure
    result whose error is the message of the thrown value if that value is
    an [Error] instance, be the message empty or not, and the generic
    message if it is not an [Error] instance, whatever it carries. *)
Theorem export_never_throws (env : Collaborators) (content : Content)
    (options : ExportOptions) (w : Trace) :
  exists result,
    fst (export env content options w) = Returned result
    /\ match fst (exportBody env content options w) with
       | Returned r => result = r
       | Threw (ErrorInstance message) =>
           success result = false /\ blob result = None
           /\ error result = Some message
       | Threw (NotAnError _) =>
           success result = false /\ blob result = None
           /\ error result = Some "Unknown DOCX export error"
       end.
Proof.
  unfold export, tryCatch.
  destruct (exportBody env content options w) as [[r | t] w'] eqn:Hbody.
  - exists r. split; reflexivity.
  - exists (failure t). split; [reflexivity |].
    destruct t; repeat split.
Qed.

(** C10: a content object whose [html] field holds the empty string, with
    no editor instance and no [json] field, is not exported: the call
    returns the unsupported-format failure and saves nothing. *)
Theorem export_empty_html_unsupported (env : Collaborators)
    (o : ContentObject) (options : ExportOptions) (w : Trace) :
  editor o = None ->
  html o = Some "" ->
  json o = None ->
  export env (ContentObj o) options w
  = (Returned {| success := false; filename := None; blob := None;
                 metadata := None;
                 error := Some "Unsupported content format for DOCX export" |},
     w ++ [ConsoleError (ErrorInstance unsupportedMessage)]).
Proof.
  intros Hed Hhtml Hjson.
  rewrite (export_of_throw env (ContentObj o) options w w
             (ErrorInstance unsupportedMessage)); [reflexivity |].
  apply exportBody_of_normalize_throw.
  unfold normalize, fromJson, field. rewrite Hed, Hhtml, Hjson. reflexivity.
Qed.

(** Collaborators that never fail: the editor serializes to one
    paragraph, the parser yields that paragraph, the serializer yields a
    fixed artifact. *)
Definition quietEnv : Collaborators :=
  {| newEditor := fun _ => Returned 7;
     getHTML := fun _ => Returned "<p>Hi</p>";
     parseBody := fun _ => [mkElement "P" [TextNode "Hi"]];
     clock := mkClock "1/2/2026" "10:00:00 AM" "1/2/2026";
     toBlob := fun _ => Returned "PK";
     generateFilename := fun t ext _ => Returned (t ++ "." ++ ext)%string;
     saveAs := fun _ _ => Returned tt;
     createMetadata := fun f c a t => Returned (mkMetadata f c a t) |}.

Lemma export_empty_html_unsupported_witness :
  export quietEnv
         (ContentObj (mkContentObject None (Some "") None (Some "Draft") None))
         (mkOptions None None) []
  = (Returned {| success := false; filename := None; blob := None;
                 metadata := None;
                 error := Some "Unsupported content format for DOCX export" |},
     [ConsoleError (ErrorInstance unsupportedMessage)]).
Proof.
  apply (export_empty_html_unsupported quietEnv
           (mkContentObject None (Some "") None (Some "Draft") None)
           (mkOptions None None) []); reflexivity.
Defined.

(** Collaborators whose serializer throws [new Error()], an error made
    without a message, and collaborators whose file-save facility throws
    the string 'Quota exceeded', a value that is no [Error]. *)
Definition silentErrorEnv : Collaborators :=
  {| newEditor := fun _ => Returned 7;
     getHTML := fun _ => Returned "<p>Hi</p>";
     parseBody := fun _ => [mkElement "P" [TextNode "Hi"]];
     clock := mkClock "1/2/2026" "10:00:00 AM" "1/2/2026";
     toBlob := fun _ => Threw (ErrorInstance "");
     generateFilename := fun t ext _ => Returned (t ++ "." ++ ext)%string;
     saveAs := fun _ _ => Returned tt;
     createMetadata := fun f c a t => Returned (mkMetadata f c a t) |}.

Definition quotaEnv : Collaborators :=
  {| newEditor := fun _ => Returned 7;
     getHTML := fun _ => Returned "<p>Hi</p>";
     parseBody := fun _ => [mkElement "P" [TextNode "Hi"]];
     clock := mkClock "1/2/2026" "10:00:00 AM" "1/2/2026";
     toBlob := fun _ => Returned "PK";
     generateFilename := fun t ext _ => Returned (t ++ "." ++ ext)%string;
     saveAs := fun _ _ => Threw (NotAnError "Quota exceeded");
     createMetadata := fun f c a t => Returned (mkMetadata f c a t) |}.

(** C4, as stated, fails: what decides between the message and the generic
    fallback is not whether the thrown value carries a message.  An [Error]
    thrown without a message yields the empty string as the error, not the
    fallback; a thrown string, which is not an [Error], yields the fallback
    and its own text is lost. *)
Lemma fallback_is_not_decided_by_the_message :
  (exists result,
      fst (export silentErrorEnv (ContentString "<p>Hi</p>")
                  (mkOptions None None) [])
      = Returned result
      /\ error result = Some ""
      /\ error result <> Some "Unknown DOCX export error")
  /\ (exists result,
         fst (export quotaEnv (ContentString "<p>Hi</p>")
                     (mkOptions None None) [])
         = Returned result
         /\ error result = Some "Unknown DOCX export error"
         /\ error result <> Some "Quota exceeded").
Proof.
  split; eexists; (split; [reflexivity |]); split;
    [reflexivity | discriminate | reflexivity | discriminate].
Qed.

(** ** The temporary editor *)

(** X21: when the temporary editor serializes, it is destroyed right after, and
    nothing that follows destroys it again: whether the rest of the export
    succeeds or fails, the call destroys it exactly once. *)
Lemma temp_editor_destroyed_once (env : Collaborators) (o : ContentObject)
    (doc : JSONContent) (e : Editor) (markup : string)
    (options : ExportOptions) (w : Trace) :
  editor o = None ->
  match html o with Some h => JsString.truthy h | None => false end = false ->
  json o = Some doc ->
  newEditor env doc = Returned e ->
  getHTML env e = Returned markup ->
  exists rest,
    snd (export env (ContentObj o) options w)
    = w ++ [EditorCreated e; EditorDestroyed e] ++ rest
    /\ destroyCount e rest = 0.
Proof.
  intros Hed Hhtml Hjson Hnew Hget.
  assert (Hnorm : normalize env (ContentObj o) w
                  = (Returned (markup, JsString.orElse (title o) defaultTitle),
                     (w ++ [EditorCreated e]) ++ [EditorDestroyed e])).
  { unfold normalize, fromJson, field. rewrite Hed.
    destruct (html o) as [h |]; [rewrite Hhtml |]; rewrite Hjson;
      unfold constructEditor, destroy, bind, call, emit, ret;
      rewrite Hnew, Hget; reflexivity. }
  unfold export, tryCatch, exportBody, bind at 1. rewrite Hnorm.
  rewrite <- app_assoc. simpl app.
  unfold createDocxFromHtml, bind, call, emit, ret, handler.
  destruct (toBlob env _) as [b | t].
  2:{ exists [ConsoleError t]. simpl. rewrite <- app_assoc. split; reflexivity. }
  destruct (generateFilename env _ _ _) as [name | t].
  2:{ exists [ConsoleError t]. simpl. rewrite <- app_assoc. split; reflexivity. }
  destruct (saveAs env b name) as [[] | t].
  2:{ exists [SaveAs b name; ConsoleError t]. simpl.
      rewrite <- !app_assoc. split; reflexivity. }
  destruct (createMetadata env _ _ _ _) as [m | t].
  - exists [SaveAs b name]. simpl. rewrite <- app_assoc. split; reflexivity.
  - exists [SaveAs b name; ConsoleError t]. simpl.
    rewrite <- !app_assoc. split; reflexivity.
Qed.


(** Collaborators whose editor fails to serialize. *)
Definition brokenEditorEnv : Collaborators :=
  {| newEditor := fun _ => Returned 7;
     getHTML := fun _ => Threw (ErrorInstance "Invalid content");
     parseBody := fun _ => [];
     clock := mkClock "1/2/2026" "10:00:00 AM" "1/2/2026";
     toBlob := fun _ => Returned "PK";
     generateFilename := fun t ext _ => Returned (t ++ "." ++ ext)%string;
     saveAs := fun _ _ => Returned tt;
     createMetadata := fun f c a t => Returned (mkMetadata f c a t) |}.

Definition structuredContent : ContentObject :=
  mkContentObject None None (Some (mkJSON "{type: doc}")) (Some "Draft") None.


(** * Further properties of the formatters *)

(** ** Lists, in general *)

Definition bulletList : Element :=
  mkElement "UL"
    [ElementNode (mkElement "LI" [TextNode "tea"]);
     TextNode " ";
     ElementNode (mkElement "LI" [TextNode "milk"])].

Lemma createList_unordered_witness :
  texts (createList bulletList) = [["• tea"]; ["• milk"]].
Proof. apply (createList_unordered bulletList). reflexivity. Defined.

Definition numberedList : Element :=
  mkElement "OL"
    [ElementNode (mkElement "LI" [TextNode "boil"]);
     ElementNode (mkElement "LI" [TextNode "pour"]);
     ElementNode (mkElement "LI" [TextNode "wait"])].

Lemma createList_ordered_items_witness :
  texts (createList numberedList) = [["1. boil"]; ["2. pour"]; ["3. wait"]].
Proof. apply (createList_ordered_items numberedList); reflexivity. Defined.

Lemma createListFrom_positions (isOrdered : bool) (cs : list Element) :
  forall index,
    createListFrom isOrdered index cs
    = map (fun p => listItem isOrdered (fst p) (snd p))
          (filter (fun p => hasTag "li" (snd p))
                  (combine (seq index (List.length cs)) cs)).
Proof.
  induction cs as [| li cs IH]; intros index; simpl.
  - reflexivity.
  - rewrite IH. destruct (hasTag "li" li); reflexivity.
Qed.

(** X4: the blocks of a list are its [li] children in source order, and the
    marker of each is computed from its position among all the element
    children of the list, counted from 0: that position plus one for an
    ordered list, the bullet otherwise. *)
Theorem createList_positions (listElement : Element) :
  createList listElement
  = map (fun p => listItem (hasTag "ol" listElement) (fst p) (snd p))
        (filter (fun p => hasTag "li" (snd p))
                (combine (seq 0 (List.length (children listElement)))
                         (children listElement))).
Proof. apply createListFrom_positions. Qed.

(** ** The walk over the top-level elements *)

(** X5: the walk mirrors the source order and treats each top-level element on
    its own: the blocks of two runs of elements put together are the blocks
    of the first followed by the blocks of the second. *)
Theorem processHtmlElements_app (xs ys : list Element) :
  processHtmlElements (xs ++ ys)
  = processHtmlElements xs ++ processHtmlElements ys.
Proof. apply flat_map_app. Qed.

(** X6: the dispatch looks at the tag in lower case only: two elements with
    the same child nodes whose tags differ in letter case yield the same
    blocks. *)
Theorem processElement_case_insensitive (tag tag' : string)
    (nodes : list Node) :
  JsString.toLowerCase tag = JsString.toLowerCase tag' ->
  processElement (mkElement tag nodes) = processElement (mkElement tag' nodes).
Proof.
  intros Hcase.
  unfold processElement, createList, hasTag, lowerTag. cbn [tagName].
  rewrite Hcase. reflexivity.
Qed.

Lemma processElement_case_insensitive_witness :
  processElement (mkElement "BlockQuote" [TextNode "so it goes"])
  = processElement (mkElement "BLOCKQUOTE" [TextNode "so it goes"]).
Proof.
  apply (processElement_case_insensitive "BlockQuote" "BLOCKQUOTE").
  reflexivity.
Defined.

(** ** The inline formatter *)

Lemma inlineRun_text (tag text : string) : run_text (inlineRun tag text) = text.
Proof.
  unfold inlineRun.
  repeat match goal with
         | |- context [if ?b then _ else _] => destruct b
         end; reflexivity.
Qed.



(** X8: the formatting of the run of a child element is decided by the
    lower-cased tag of that child alone: bold for [strong] and [b], italics
    for [em] and [i], underline for [u] and [a], strike for [s] and
    [strike], the fixed-width font for [code], the link colour for [a];
    the text is passed through unchanged. *)
Theorem inlineRun_styles (tag text : string) :
  run_text (inlineRun tag text) = text
  /\ (run_bold (inlineRun tag text) = Some true
      <-> tag = "strong" \/ tag = "b")
  /\ (run_italics (inlineRun tag text) = Some true
      <-> tag = "em" \/ tag = "i")
  /\ (run_underline (inlineRun tag text) = true
      <-> tag = "u" \/ tag = "a")
  /\ (run_strike (inlineRun tag text) = Some true
      <-> tag = "s" \/ tag = "strike")
  /\ (run_font (inlineRun tag text) = Some "Courier New" <-> tag = "code")
  /\ (run_color (inlineRun tag text) = Some "0066cc" <-> tag = "a").
Proof.
  split; [apply inlineRun_text |].
  unfold inlineRun.
  destruct (String.eqb_spec tag "strong") as [-> | Hstrong];
    [simpl; intuition (discriminate || auto) |].
  destruct (String.eqb_spec tag "b") as [-> | Hb];
    [simpl; intuition (discriminate || auto) |].
  destruct (String.eqb_spec tag "em") as [-> | Hem];
    [simpl; intuition (discriminate || auto) |].
  destruct (String.eqb_spec tag "i") as [-> | Hi];
    [simpl; intuition (discriminate || auto) |].
  destruct (String.eqb_spec tag "u") as [-> | Hu];
    [simpl; intuition (discriminate || auto) |].
  destruct (String.eqb_spec tag "s") as [-> | Hs];
    [simpl; intuition (discriminate || auto) |].
  destruct (String.eqb_spec tag "strike") as [-> | Hstrike];
    [simpl; intuition (discriminate || auto) |].
  destruct (String.eqb_spec tag "code") as [-> | Hcode];
    [simpl; intuition (discriminate || auto) |].
  destruct (String.eqb_spec tag "a") as [-> | Ha];
    [simpl; intuition (discriminate || auto) |].
  simpl. intuition (discriminate || auto).
Qed.

(** ** Tables, in general *)

(** The texts held by a table block, row by row and cell by cell. *)
Definition cellTexts (t : Table) : list (list (list string)) :=
  map (fun r =>
         map (fun c =>
                flat_map (fun p => map run_text (par_children p))
                         (cell_children c))
             (row_children r))
      (table_rows t).

Lemma createRowsFrom_texts (rs : list Element) :
  forall start,
    map (fun r =>
           map (fun c =>
                  flat_map (fun p => map run_text (par_children p))
                           (cell_children c))
               (row_children r))
        (createRowsFrom start rs)
    = map (fun row => map (fun c => [textContent c]) (cells row)) rs.
Proof.
  induction rs as [| row rs IH]; intros start; simpl.
  - reflexivity.
  - rewrite IH. f_equal. rewrite map_map. reflexivity.
Qed.

(** X9: the table block has the shape of the source table: one row per row of
    the table, in the order of [rows], one cell per cell of the row, and
    each cell holds exactly the flattened text of its source cell. *)
Theorem createTable_texts (tableElement : Element) :
  cellTexts (createTable tableElement)
  = map (fun row => map (fun c => [textContent c]) (cells row))
        (rows tableElement).
Proof. apply createRowsFrom_texts. Qed.

(** ** Every block carries a run *)

(** A paragraph block has at least one run; every cell of a table block
    holds one paragraph made of one run. *)
Definition hasRuns (b : Block) : Prop :=
  match b with
  | BParagraph p => par_children p <> []
  | BTable t =>
      Forall (fun r =>
                Forall (fun c =>
                          exists p run,
                            cell_children c = [p] /\ par_children p = [run])
                       (row_children r))
             (table_rows t)
  end.

Lemma createListFrom_hasRuns (isOrdered : bool) (cs : list Element) :
  forall index,
    Forall hasRuns (map BParagraph (createListFrom isOrdered index cs)).
Proof.
  induction cs as [| li cs IH]; intros index; simpl.
  - constructor.
  - destruct (hasTag "li" li); simpl.
    + constructor; [discriminate | apply IH].
    + apply IH.
Qed.

Lemma createRowsFrom_hasRuns (rs : list Element) :
  forall start,
    Forall (fun r =>
              Forall (fun c =>
                        exists p run,
                          cell_children c = [p] /\ par_children p = [run])
                     (row_children r))
           (createRowsFrom start rs).
Proof.
  induction rs as [| row rs IH]; intros start; simpl.
  - constructor.
  - constructor; [| apply IH].
    unfold createRow. simpl. apply Forall_map.
    apply Forall_forall. intros cell _. simpl.
    eexists. eexists. split; reflexivity.
Qed.

Lemma createParagraph_hasRuns (element : Element) :
  hasRuns (BParagraph (createParagraph element)).
Proof.
  unfold hasRuns. rewrite createParagraph_children.
  destruct (processInlineElements element []); discriminate.
Qed.

Lemma processElement_hasRuns (element : Element) :
  Forall hasRuns (processElement element).
Proof.
  unfold processElement.
  repeat match goal with
         | |- Forall _ (if (lowerTag element =? ?t)%string then _ else _) =>
             destruct (lowerTag element =? t)%string;
             [constructor; [discriminate | constructor] |]
         end.
  destruct (lowerTag element =? "p")%string.
  { constructor; [apply createParagraph_hasRuns | constructor]. }
  destruct ((lowerTag element =? "ul") || (lowerTag element =? "ol"))%string.
  { apply createListFrom_hasRuns. }
  destruct (lowerTag element =? "blockquote")%string.
  { constructor; [discriminate | constructor]. }
  destruct (lowerTag element =? "pre")%string.
  { constructor; [discriminate | constructor]. }
  destruct (lowerTag element =? "table")%string.
  { constructor; [apply createRowsFrom_hasRuns | constructor]. }
  destruct (lowerTag element =? "hr")%string.
  { constructor; [discriminate | constructor]. }
  destruct (JsString.truthy (JsString.trim (textContent element))).
  - constructor; [apply createParagraph_hasRuns | constructor].
  - constructor.
Qed.

(** X10: no block of the body is empty: every paragraph block the walk emits
    has at least one run, and every cell of every table block holds one
    paragraph of one run. *)
Theorem processHtmlElements_hasRuns (elements : list Element) :
  Forall hasRuns (processHtmlElements elements).
Proof.
  unfold processHtmlElements.
  induction elements as [| element elements IH]; simpl.
  - constructor.
  - apply Forall_app. split; [apply processElement_hasRuns | exact IH].
Qed.

(** ** How many blocks an element yields *)

Lemma recognized_true_cases (tag : string) :
  recognized tag = true -> In tag recognizedTags.
Proof.
  unfold recognized. intros H. apply existsb_exists in H.
  destruct H as [t [Hin Heq]]. apply String.eqb_eq in Heq. subst. exact Hin.
Qed.

(** X11: an element with a case of its own yields exactly one block, whatever it
    holds, unless it is a list, which yields one block per [li] child; an
    element without a case of its own yields at most one. *)
Theorem processElement_count (element : Element) :
  (recognized (lowerTag element) = true ->
   lowerTag element <> "ul" -> lowerTag element <> "ol" ->
   List.length (processElement element) = 1)
  /\ (lowerTag element = "ul" \/ lowerTag element = "ol" ->
      List.length (processElement element) = List.length (items element))
  /\ (recognized (lowerTag element) = false ->
      List.length (processElement element) <= 1).
Proof.
  split; [| split].
  - intros Hrec Hul Hol. apply recognized_true_cases in Hrec.
    unfold processElement. simpl in Hrec.
    repeat (destruct Hrec as [Heq | Hrec];
            [rewrite <- Heq in *; try reflexivity; congruence |]).
    contradiction.
  - intros [Htag | Htag]; unfold processElement, createList;
      rewrite Htag; simpl; rewrite length_map;
      apply createListFrom_length.
  - intros Hrec. rewrite (processElement_default _ Hrec).
    destruct (JsString.truthy _); simpl; lia.
Qed.

Lemma processElement_count_witness :
  List.length (processElement (mkElement "H3" [])) = 1
  /\ List.length (processElement bulletList) = 2
  /\ List.length (processElement (mkElement "SECTION" [TextNode "x"])) <= 1.
Proof.
  split; [| split].
  - apply (processElement_count (mkElement "H3" []));
      [reflexivity | discriminate | discriminate].
  - apply (processElement_count bulletList). left. reflexivity.
  - apply (processElement_count (mkElement "SECTION" [TextNode "x"])).
    reflexivity.
Defined.



(** * Further properties of the assembler and the orchestrator *)

(** ** The frame of the document *)

(** X13: whatever the options and the body, the sections open with the Title
    block and close with the footer, the body blocks stand right before the
    footer, and nothing but the two metadata blocks is ever added. *)
Theorem documentSections_frame (clock : Clock) (body : list Element)
    (title : string) (options : ExportOptions) :
  hd_error (documentSections clock body title options)
  = Some (BParagraph (titleBlock title))
  /\ last (documentSections clock body title options)
          (BParagraph (titleBlock title))
     = BParagraph (footerBlock clock)
  /\ (exists front,
         documentSections clock body title options
         = front ++ processHtmlElements body ++ [BParagraph (footerBlock clock)]
         /\ (front = [BParagraph (titleBlock title)]
             \/ front = BParagraph (titleBlock title) :: metadataBlocks clock))
  /\ List.length (documentSections clock body title options)
     = 2 + (if isSet (includeMetadata options) then 2 else 0)
       + List.length (processHtmlElements body).
Proof.
  unfold documentSections. split; [reflexivity |]. split; [| split].
  - rewrite !app_assoc. apply last_last.
  - destruct (isSet (includeMetadata options)).
    + exists (BParagraph (titleBlock title) :: metadataBlocks clock).
      split; [reflexivity | right; reflexivity].
    + exists [BParagraph (titleBlock title)].
      split; [reflexivity | left; reflexivity].
  - destruct (isSet (includeMetadata options)); simpl;
      rewrite length_app; simpl; lia.
Qed.

(** ** The stages of [export] *)

(** The result of a successful export. *)
Definition succeeded (f : string) (b : Blob) (m : ExportMetadata)
  : ExportResult :=
  {| success := true; filename := Some f; blob := Some b;
     metadata := Some m; error := None |}.

(** What the [try] block does once the markup and the title are known. *)
Lemma exportBody_after_normalize (env : Collaborators) (content : Content)
    (options : ExportOptions) (w w1 : Trace) (markup name : string) :
  normalize env content w = (Returned (markup, name), w1) ->
  exportBody env content options w
  = match toBlob env (assembleDocument (clock env) (parseBody env markup)
                                       name options) with
    | Threw t => (Threw t, w1)
    | Returned b =>
        match generateFilename env name "docx" (customFilename options) with
        | Threw t => (Threw t, w1)
        | Returned f =>
            match saveAs env b f with
            | Threw t => (Threw t, w1 ++ [SaveAs b f])
            | Returned _ =>
                match createMetadata env "docx" "" (field articleId content)
                                     name with
                | Threw t => (Threw t, w1 ++ [SaveAs b f])
                | Returned m => (Returned (succeeded f b m), w1 ++ [SaveAs b f])
                end
            end
        end
    end.
Proof.
  intros Hnorm. unfold exportBody, bind at 1. rewrite Hnorm.
  unfold createDocxFromHtml, bind, call, emit, ret.
  destruct (toBlob env _) as [b | t]; [| reflexivity].
  destruct (generateFilename env _ _ _) as [f | t]; [| reflexivity].
  destruct (saveAs env b f) as [u | t]; [| reflexivity].
  destruct (createMetadata env _ _ _ _) as [m | t]; reflexivity.
Qed.

(** What the head of [export] adds to the trace: nothing, or the creation
    of the temporary editor followed, when the head returns, by its
    destruction. *)
Lemma normalize_trace (env : Collaborators) (content : Content) (w w1 : Trace)
    (o : Outcome (string * string)) :
  normalize env content w = (o, w1) ->
  exists d,
    w1 = w ++ d
    /\ match o with
       | Returned _ =>
           d = [] \/ exists e, d = [EditorCreated e; EditorDestroyed e]
       | Threw _ => d = [] \/ exists e, d = [EditorCreated e]
       end.
Proof.
  assert (Hjson : forall o w1,
             fromJson env content w = (o, w1) ->
             exists d,
               w1 = w ++ d
               /\ match o with
                  | Returned _ =>
                      d = [] \/ exists e, d = [EditorCreated e; EditorDestroyed e]
                  | Threw _ => d = [] \/ exists e, d = [EditorCreated e]
                  end).
  { clear o w1. intros o w1. unfold fromJson.
    destruct (field json content) as [doc |].
    - unfold constructEditor, destroy, bind, call, emit, ret.
      destruct (newEditor env doc) as [e | t].
      + destruct (getHTML env e) as [h | t]; intros H; inversion H; subst.
        * exists [EditorCreated e; EditorDestroyed e].
          rewrite <- app_assoc. split; [reflexivity | right; eauto].
        * exists [EditorCreated e]. split; [reflexivity | right; eauto].
      + intros H; inversion H; subst. exists []. rewrite app_nil_r. auto.
    - unfold throw. intros H; inversion H; subst.
      exists []. rewrite app_nil_r. auto. }
  unfold normalize.
  destruct content as [s | n | b | | obj];
    try (cbn [field]; apply Hjson).
  - unfold ret. intros H; inversion H; subst.
    exists []. rewrite app_nil_r. auto.
  - destruct (field editor (ContentObj obj)) as [ed |].
    + unfold bind, call, ret. destruct (getHTML env ed) as [h | t];
        intros H; inversion H; subst; exists []; rewrite app_nil_r; auto.
    + destruct (field html (ContentObj obj)) as [h |]; [| apply Hjson].
      destruct (JsString.truthy h); [| apply Hjson].
      unfold ret. intros H; inversion H; subst.
      exists []. rewrite app_nil_r. auto.
Qed.

(** The console entries of a trace, and its editor events. *)
Definition isLog (ev : Event) : bool :=
  match ev with ConsoleError _ => true | _ => false end.

Definition logged (w : Trace) : Trace := filter isLog w.

Definition isEditorEvent (ev : Event) : bool :=
  match ev with
  | EditorCreated _ | EditorDestroyed _ => true
  | _ => false
  end.

(** What happens after the head of [export]: the call returns a success
    after one save, or a failure after one console entry, with or without a
    save before it. *)
Lemma export_after_head (env : Collaborators) (content : Content)
    (options : ExportOptions) (w : Trace) :
  exists o w1 r rest,
    normalize env content w = (o, w1)
    /\ export env content options w = (Returned r, w1 ++ rest)
    /\ ((exists f b m, r = succeeded f b m /\ rest = [SaveAs b f])
        \/ (exists t, r = failure t /\ rest = [ConsoleError t])
        \/ (exists t f b, r = failure t /\ rest = [SaveAs b f; ConsoleError t])).
Proof.
  destruct (normalize env content w) as [[[markup name] | t] w1] eqn:Hnorm.
  - exists (Returned (markup, name)), w1.
    unfold export, tryCatch.
    rewrite (exportBody_after_normalize _ _ _ _ _ _ _ Hnorm).
    unfold handler, bind, emit, ret.
    destruct (toBlob env _) as [b | t].
    2:{ exists (failure t), [ConsoleError t]. repeat split. right. left. eauto. }
    destruct (generateFilename env _ _ _) as [f | t].
    2:{ exists (failure t), [ConsoleError t]. repeat split. right. left. eauto. }
    destruct (saveAs env b f) as [u | t].
    2:{ exists (failure t), [SaveAs b f; ConsoleError t].
        rewrite <- app_assoc. repeat split. right. right. eauto. }
    destruct (createMetadata env _ _ _ _) as [m | t].
    + exists (succeeded f b m), [SaveAs b f]. repeat split. left. eauto.
    + exists (failure t), [SaveAs b f; ConsoleError t].
      rewrite <- app_assoc. repeat split. right. right. eauto.
  - exists (Threw t), w1, (failure t), [ConsoleError t].
    split; [reflexivity |]. split.
    + apply export_of_throw. apply exportBody_of_normalize_throw. exact Hnorm.
    + right. left. eauto.
Qed.

(** X14: success and failure exclude each other.  A call either returns a
    success that carries the filename, the artifact and the metadata, after
    handing exactly that artifact under exactly that filename to the
    file-save facility once, with no console entry; or it returns a failure
    that carries an error message and nothing else, after one console entry
    and at most one save. *)
Theorem export_success_or_failure (env : Collaborators) (content : Content)
    (options : ExportOptions) (w : Trace) :
  exists d r,
    export env content options w = (Returned r, w ++ d)
    /\ ((exists f b m,
            r = succeeded f b m
            /\ saves d = [SaveAs b f] /\ logged d = [])
        \/ (exists t,
               r = failure t
               /\ List.length (saves d) <= 1
               /\ logged d = [ConsoleError t]
               /\ last d (ConsoleError t) = ConsoleError t)).
Proof.
  destruct (export_after_head env content options w)
    as (o & w1 & r & rest & Hnorm & Hexport & Hrest).
  destruct (normalize_trace _ _ _ _ _ Hnorm) as (d0 & -> & Hd0).
  exists (d0 ++ rest), r. rewrite app_assoc. split; [exact Hexport |].
  assert (Hquiet : saves d0 = [] /\ logged d0 = []).
  { destruct o; destruct Hd0 as [-> | [e ->]]; split; reflexivity. }
  destruct Hquiet as [Hsaves Hlogged].
  unfold saves, logged in *.
  destruct Hrest as [(f & b & m & -> & ->) | [(t & -> & ->) | (t & f & b & -> & ->)]].
  - left. exists f, b, m. rewrite !filter_app, Hsaves, Hlogged.
    repeat split.
  - right. exists t. rewrite !filter_app, Hsaves, Hlogged.
    repeat split; [simpl; lia | apply last_last].
  - right. exists t. rewrite !filter_app, Hsaves, Hlogged.
    repeat split; [simpl; lia |].
    change [SaveAs b f; ConsoleError t]
      with ([SaveAs b f] ++ [ConsoleError t]).
    rewrite app_assoc. apply last_last.
Qed.

(** X15: A call destroys no editor but the temporary one it has created itself,
    and that one at most once. *)
Theorem export_destroys_only_its_own (env : Collaborators) (content : Content)
    (options : ExportOptions) (w : Trace) :
  exists d,
    snd (export env content options w) = w ++ d
    /\ forall e,
         destroyCount e d <= 1
         /\ (In (EditorDestroyed e) d -> In (EditorCreated e) d).
Proof.
  destruct (export_after_head env content options w)
    as (o & w1 & r & rest & Hnorm & Hexport & Hrest).
  destruct (normalize_trace _ _ _ _ _ Hnorm) as (d0 & -> & Hd0).
  exists (d0 ++ rest). rewrite Hexport, app_assoc. split; [reflexivity |].
  intros e.
  assert (Hrest' : destroyCount e rest = 0
                   /\ ~ In (EditorDestroyed e) rest).
  { destruct Hrest as [(f & b & m & _ & ->) | [(t & _ & ->) | (t & f & b & _ & ->)]];
      (split; [reflexivity | simpl; intuition discriminate]). }
  destruct Hrest' as [Hcount Hnotin].
  rewrite destroyCount_app, Hcount. split.
  - destruct o; destruct Hd0 as [-> | [e' ->]];
      unfold destroyCount; simpl; try lia;
      destruct (e' =? e); simpl; lia.
  - intros Hin. apply in_app_or in Hin. destruct Hin as [Hin | Hin];
      [| contradiction].
    apply in_or_app. left.
    destruct o; destruct Hd0 as [-> | [e' ->]]; simpl in Hin |- *;
      repeat (destruct Hin as [Hin | Hin]);
      try discriminate; try contradiction.
    all: inversion Hin; subst; auto.
Qed.

(** ** The content shapes, in order *)

(** X16: the shapes are tried in a fixed order and the first that matches
    decides.  A string is the markup itself, under the default title.  An
    object with an editor instance is read through that editor, whatever its
    [html] and [json] fields hold, and a throw of that editor is not made up
    for by them.  Without an editor instance, a non-empty [html] field is
    the markup, whatever the [json] field holds.  None of the three touches
    the trace: no temporary editor is made. *)
Theorem normalize_priority (env : Collaborators) (w : Trace) :
  (forall s,
      normalize env (ContentString s) w
      = (Returned (s, "Untitled Article"), w))
  /\ (forall o ed,
        editor o = Some ed ->
        normalize env (ContentObj o) w
        = match getHTML env ed with
          | Returned markup =>
              (Returned (markup, JsString.orElse (title o) "Untitled Article"),
               w)
          | Threw t => (Threw t, w)
          end)
  /\ (forall o markup,
        editor o = None ->
        html o = Some markup ->
        markup <> "" ->
        normalize env (ContentObj o) w
        = (Returned (markup, JsString.orElse (title o) "Untitled Article"), w)).
Proof.
  split; [reflexivity |]. split.
  - intros o ed Hed. unfold normalize, field. rewrite Hed.
    unfold bind, call, ret. destruct (getHTML env ed); reflexivity.
  - intros o markup Hed Hhtml Hmarkup. unfold normalize, field.
    rewrite Hed, Hhtml. apply truthy_true_iff in Hmarkup. rewrite Hmarkup.
    reflexivity.
Qed.

Definition liveContent : ContentObject :=
  mkContentObject (Some 3) (Some "<p>stale</p>") (Some (mkJSON "{type: doc}"))
                  (Some "Draft") (Some "a-17").

Definition markupContent : ContentObject :=
  mkContentObject None (Some "<p>Hi</p>") (Some (mkJSON "{type: doc}"))
                  (Some "") None.

Lemma normalize_priority_witness :
  normalize brokenEditorEnv (ContentObj liveContent) []
  = (Threw (ErrorInstance "Invalid content"), [])
  /\ normalize brokenEditorEnv (ContentObj markupContent) []
     = (Returned ("<p>Hi</p>", "Untitled Article"), []).
Proof.
  destruct (normalize_priority brokenEditorEnv []) as (_ & Hlive & Hmarkup).
  split.
  - apply (Hlive liveContent 3). reflexivity.
  - apply (Hmarkup markupContent "<p>Hi</p>");
      [reflexivity | reflexivity | discriminate].
Defined.

Lemma normalize_title (env : Collaborators) (content : Content)
    (w w1 : Trace) (markup name : string) :
  normalize env content w = (Returned (markup, name), w1) ->
  name = JsString.orElse (field title content) defaultTitle.
Proof.
  assert (Hjson : fromJson env content w = (Returned (markup, name), w1) ->
                  name = JsString.orElse (field title content) defaultTitle).
  { unfold fromJson. destruct (field json content) as [doc |].
    - unfold constructEditor, destroy, bind, call, emit, ret.
      destruct (newEditor env doc) as [e | t]; [| discriminate].
      destruct (getHTML env e) as [h | t]; [| discriminate].
      intros H; inversion H; subst. reflexivity.
    - discriminate. }
  unfold normalize.
  destruct content as [s | n | b | | obj]; try (cbn [field]; exact Hjson).
  - unfold ret. intros H; inversion H; subst. reflexivity.
  - destruct (field editor (ContentObj obj)) as [ed |].
    + unfold bind, call, ret. destruct (getHTML env ed) as [h | t];
        [| discriminate].
      intros H; inversion H; subst. reflexivity.
    + destruct (field html (ContentObj obj)) as [h |]; [| exact Hjson].
      destruct (JsString.truthy h); [| exact Hjson].
      unfold ret. intros H; inversion H; subst. reflexivity.
Qed.

(** X17: the title a document is exported under is never empty: whenever
    the content has a [title] field that is a non-empty string, that string
    is the title, and when it has none, or an empty one, or is not an
    object, the title is "Untitled Article". *)
Theorem resolved_title_not_empty (env : Collaborators) (content : Content)
    (w w1 : Trace) (markup name : string) :
  normalize env content w = (Returned (markup, name), w1) ->
  name <> ""
  /\ (forall t, field title content = Some t -> t <> "" -> name = t)
  /\ (field title content = None \/ field title content = Some "" ->
      name = "Untitled Article")
  /\ (name = "Untitled Article" \/ field title content = Some name).
Proof.
  intros Hnorm. apply normalize_title in Hnorm. subst name.
  unfold JsString.orElse.
  destruct (field title content) as [t |].
  - destruct t as [| c t]; simpl.
    + repeat split; try discriminate; auto.
      intros t' Ht' Hne. inversion Ht'; subst. contradiction.
    + repeat split; try discriminate; auto.
      * intros t' Ht' _. inversion Ht'; subst. reflexivity.
      * intros [H | H]; discriminate.
  - repeat split; try discriminate; auto.
Qed.

Lemma resolved_title_not_empty_witness :
  "Draft" <> ""
  /\ (forall t,
        field title (ContentObj liveContent) = Some t -> t <> "" ->
        "Draft" = t)
  /\ (field title (ContentObj liveContent) = None
      \/ field title (ContentObj liveContent) = Some "" ->
      "Draft" = "Untitled Article")
  /\ ("Draft" = "Untitled Article"
      \/ field title (ContentObj liveContent) = Some "Draft").
Proof.
  apply (resolved_title_not_empty quietEnv (ContentObj liveContent) [] []
           "<p>Hi</p>" "Draft").
  reflexivity.
Defined.

(** ** The stages after the head *)

(** X18: when every collaborator returns, the export succeeds: the document is
    assembled from the parsed markup under the resolved title, the filename
    is derived from that title, the format tag and the custom filename, the
    artifact is saved once under that filename, and the metadata is made
    from the format tag, an empty checksum, the article identifier of the
    content and the title. *)
Theorem export_succeeds (env : Collaborators) (content : Content)
    (options : ExportOptions) (w w1 : Trace) (markup name f : string)
    (b : Blob) (m : ExportMetadata) :
  normalize env content w = (Returned (markup, name), w1) ->
  toBlob env (assembleDocument (clock env) (parseBody env markup) name options)
  = Returned b ->
  generateFilename env name "docx" (customFilename options) = Returned f ->
  saveAs env b f = Returned tt ->
  createMetadata env "docx" "" (field articleId content) name = Returned m ->
  export env content options w
  = (Returned {| success := true; filename := Some f; blob := Some b;
                 metadata := Some m; error := None |},
     w1 ++ [SaveAs b f]).
Proof.
  intros Hnorm Hblob Hname Hsave Hmeta. unfold export, tryCatch.
  rewrite (exportBody_after_normalize _ _ _ _ _ _ _ Hnorm).
  rewrite Hblob, Hname, Hsave, Hmeta. reflexivity.
Qed.

Lemma export_succeeds_witness :
  export quietEnv (ContentString "<p>Hi</p>") (mkOptions (Some true) None) []
  = (Returned {| success := true;
                 filename := Some "Untitled Article.docx";
                 blob := Some "PK";
                 metadata :=
                   Some (mkMetadata "docx" "" None "Untitled Article");
                 error := None |},
     [SaveAs "PK" "Untitled Article.docx"]).
Proof.
  apply (export_succeeds quietEnv (ContentString "<p>Hi</p>")
           (mkOptions (Some true) None) [] [] "<p>Hi</p>" "Untitled Article"
           "Untitled Article.docx" "PK"
           (mkMetadata "docx" "" None "Untitled Article"));
    reflexivity.
Defined.

(** X19: A failure after the save has been triggered is reported like any
    other: when the file-save facility throws, or when it returns and the
    metadata helper throws, the result is a failure without the artifact,
    although the artifact was handed to the file-save facility. *)
Theorem export_fails_after_save (env : Collaborators) (content : Content)
    (options : ExportOptions) (w w1 : Trace) (markup name f : string)
    (b : Blob) (t : Thrown) :
  normalize env content w = (Returned (markup, name), w1) ->
  toBlob env (assembleDocument (clock env) (parseBody env markup) name options)
  = Returned b ->
  generateFilename env name "docx" (customFilename options) = Returned f ->
  saveAs env b f = Threw t
  \/ (saveAs env b f = Returned tt
      /\ createMetadata env "docx" "" (field articleId content) name
         = Threw t) ->
  export env content options w
  = (Returned (failure t), w1 ++ [SaveAs b f; ConsoleError t])
  /\ blob (failure t) = None.
Proof.
  intros Hnorm Hblob Hname Hlate. split; [| reflexivity].
  unfold export, tryCatch.
  rewrite (exportBody_after_normalize _ _ _ _ _ _ _ Hnorm).
  rewrite Hblob, Hname.
  destruct Hlate as [Hsave | [Hsave Hmeta]].
  - rewrite Hsave. unfold handler, bind, emit, ret.
    rewrite <- app_assoc. reflexivity.
  - rewrite Hsave, Hmeta. unfold handler, bind, emit, ret.
    rewrite <- app_assoc. reflexivity.
Qed.

(** Collaborators whose file-save facility is blocked. *)
Definition blockedSaveEnv : Collaborators :=
  {| newEditor := fun _ => Returned 7;
     getHTML := fun _ => Returned "<p>Hi</p>";
     parseBody := fun _ => [mkElement "P" [TextNode "Hi"]];
     clock := mkClock "1/2/2026" "10:00:00 AM" "1/2/2026";
     toBlob := fun _ => Returned "PK";
     generateFilename := fun t ext _ => Returned (t ++ "." ++ ext)%string;
     saveAs := fun _ _ => Threw (NotAnError "blocked");
     createMetadata := fun f c a t => Returned (mkMetadata f c a t) |}.

Lemma export_fails_after_save_witness :
  export blockedSaveEnv (ContentString "<p>Hi</p>") (mkOptions None None) []
  = (Returned {| success := false; filename := None; blob := None;
                 metadata := None;
                 error := Some "Unknown DOCX export error" |},
     [SaveAs "PK" "Untitled Article.docx";
      ConsoleError (NotAnError "blocked")])
  /\ blob (failure (NotAnError "blocked")) = None.
Proof.
  apply (export_fails_after_save blockedSaveEnv (ContentString "<p>Hi</p>")
           (mkOptions None None) [] [] "<p>Hi</p>" "Untitled Article"
           "Untitled Article.docx" "PK" (NotAnError "blocked"));
    [reflexivity | reflexivity | reflexivity | left; reflexivity].
Defined.

(** ** Editors *)

Lemma normalize_without_json (env : Collaborators) (content : Content)
    (w w1 : Trace) (o : Outcome (string * string)) :
  (exists s, content = ContentString s)
  \/ (exists ed, field editor content = Some ed)
  \/ (exists markup, field html content = Some markup /\ markup <> "")
  \/ field json content = None ->
  normalize env content w = (o, w1) ->
  w1 = w.
Proof.
  intros Hshape.
  assert (Hjson : field json content = None ->
                  fromJson env content w = (o, w1) -> w1 = w).
  { intros Hnone. unfold fromJson. rewrite Hnone. unfold throw.
    intros H; inversion H; reflexivity. }
  destruct Hshape as [[s ->] | [[ed Hed] | [[markup [Hhtml Hmarkup]] | Hnone]]].
  - unfold normalize, ret. intros H; inversion H; reflexivity.
  - unfold normalize. destruct content as [s | n | b | | obj];
      try discriminate.
    rewrite Hed. unfold bind, call, ret.
    destruct (getHTML env ed); intros H; inversion H; reflexivity.
  - unfold normalize. destruct content as [s | n | b | | obj];
      try discriminate.
    destruct (field editor (ContentObj obj)) as [ed |].
    + unfold bind, call, ret.
      destruct (getHTML env ed); intros H; inversion H; reflexivity.
    + rewrite Hhtml. apply truthy_true_iff in Hmarkup. rewrite Hmarkup.
      unfold ret. intros H; inversion H; reflexivity.
  - unfold normalize. destruct content as [s | n | b | | obj];
      try (cbn [field]; apply Hjson; exact Hnone).
    + unfold ret. intros H; inversion H; reflexivity.
    + destruct (field editor (ContentObj obj)) as [ed |].
      * unfold bind, call, ret.
        destruct (getHTML env ed); intros H; inversion H; reflexivity.
      * destruct (field html (ContentObj obj)) as [h |];
          [| apply Hjson; exact Hnone].
        destruct (JsString.truthy h); [| apply Hjson; exact Hnone].
        unfold ret. intros H; inversion H; reflexivity.
Qed.

(** X20: an export of a string, of an object with an editor instance, of an
    object with a non-empty [html] field, or of anything without a [json]
    field neither creates nor destroys an editor: the editor of the caller
    is read and left alive. *)
Theorem export_touches_no_editor (env : Collaborators) (content : Content)
    (options : ExportOptions) (w : Trace) :
  (exists s, content = ContentString s)
  \/ (exists ed, field editor content = Some ed)
  \/ (exists markup, field html content = Some markup /\ markup <> "")
  \/ field json content = None ->
  exists d,
    snd (export env content options w) = w ++ d
    /\ filter isEditorEvent d = [].
Proof.
  intros Hshape.
  destruct (export_after_head env content options w)
    as (o & w1 & r & rest & Hnorm & Hexport & Hrest).
  apply (normalize_without_json _ _ _ _ _ Hshape) in Hnorm. subst w1.
  exists rest. rewrite Hexport. split; [reflexivity |].
  destruct Hrest as [(f & b & m & _ & ->) | [(t & _ & ->) | (t & f & b & _ & ->)]];
    reflexivity.
Qed.

Lemma export_touches_no_editor_witness :
  exists d,
    snd (export quietEnv (ContentObj liveContent) (mkOptions None None) [])
    = [] ++ d
    /\ filter isEditorEvent d = [].
Proof.
  apply (export_touches_no_editor quietEnv (ContentObj liveContent)
           (mkOptions None None) []).
  right. left. exists 3. reflexivity.
Defined.

Lemma temp_editor_destroyed_once_witness :
  exists rest,
    snd (export quietEnv (ContentObj structuredContent) (mkOptions None None)
                [])
    = [] ++ [EditorCreated 7; EditorDestroyed 7] ++ rest
    /\ destroyCount 7 rest = 0.
Proof.
  apply (temp_editor_destroyed_once quietEnv structuredContent
           (mkJSON "{type: doc}") 7 "<p>Hi</p>" (mkOptions None None) []);
    reflexivity.
Defined.

(** * Blank text and the fallback run of a paragraph *)










Lemma inlineRun_styles_witness :
  run_bold (inlineRun "b" "now") = Some true
  /\ run_color (inlineRun "a" "here") = Some "0066cc".
Proof.
  split.
  - apply (inlineRun_styles "b" "now"). right. reflexivity.
  - apply (inlineRun_styles "a" "here"). reflexivity.
Defined.

Lemma export_destroys_only_its_own_witness :
  exists d,
    snd (export quietEnv (ContentObj structuredContent) (mkOptions None None)
                [])
    = [] ++ d
    /\ forall e,
         destroyCount e d <= 1
         /\ (In (EditorDestroyed e) d -> In (EditorCreated e) d).
Proof.
  exact (export_destroys_only_its_own quietEnv (ContentObj structuredContent)
           (mkOptions None None) []).
Defined.

(** * The temporary editor, path by path *)





(** A paragraph whose middle child is a no-break space yields two runs:
    the blank text node is dropped. *)
Example blank_text_node_is_dropped :
  map run_text
      (processInlineElements
         (mkElement "P"
            [ElementNode (mkElement "B" [TextNode "one"]);
             TextNode nbsp;
             ElementNode (mkElement "I" [TextNode "two"])])
         [])
  = ["one"; "two"].
Proof. reflexivity. Qed.
